(** * vLLM client adapter: a shallow embedding of package [vllm]

    The Go package [vllm] adapts the agent framework's chat interfaces
    ([llm.ChatClient], [llm.StreamingChatClient]) to an OpenAI-compatible
    server through the [go-openai] library.  This development embeds

    - the lazily built, memoised transport handle ([Client.newOpenAIClient]),
    - the synchronous call ([Client.Chat]),
    - the stream opening call ([Client.ChatStream]),
    - the pull adapter ([streamWrapper.Recv], [streamWrapper.Close]),

    and proves the properties the specification states about them.

    Conventions.  A Go result pair [(v, err)] is a Rocq pair of options:
    [None] is [nil].  A method with a pointer receiver returns the receiver's
    new state next to its results.  The two collaborators that are not part of
    the package are kept abstract: the [go-openai] transport is the class
    [Transport], and the outside world (the objects that have been allocated
    and the requests that went out on the wire) is the record [World]. *)

From Stdlib Require Import String List Bool Arith Lia.
Import ListNotations.

Local Open Scope string_scope.
Local Open Scope list_scope.

(** ** Go error values *)

(** The dynamic values an [error] interface can hold here: the sentinel
    [io.EOF], a leaf error carrying a message ([errors.New], [fmt.Errorf]
    without a wrapping verb, or any error of the transport library), and an
    error made by [fmt.Errorf] with one [%w] verb, which remembers its cause.
    Comparing with [==] against [io.EOF] is comparing against the sentinel
    itself: a leaf error whose text is ["EOF"] is a different value. *)
Inductive error : Type :=
| io_EOF
| errorString (s : string)
| wrapError (msg : string) (err : error).

(** [err.Error()] *)
Definition Error (e : error) : string :=
  match e with
  | io_EOF => "EOF"
  | errorString s => s
  | wrapError msg _ => msg
  end.

(** [errors.Unwrap(err)] *)
Definition Unwrap (e : error) : option error :=
  match e with
  | wrapError _ err => Some err
  | _ => None
  end.

(** [fmt.Errorf(msg)] with a format that has no verb. *)
Definition fmt_Errorf (msg : string) : error := errorString msg.

(** [fmt.Errorf(prefix + "%w", err)]: the text is the prefix followed by the
    text of the cause, and the cause is kept for [Unwrap]. *)
Definition fmt_Errorf_w (prefix : string) (err : error) : error :=
  wrapError (prefix ++ Error err)%string err.

(** [err == io.EOF] *)
Definition is_EOF (e : error) : bool :=
  match e with
  | io_EOF => true
  | _ => false
  end.

(** ** Package [llm]: the framework's vocabulary

    [llm.Role] is a string type (the package converts it with [string(m.Role)]
    and [llm.Role(msg.Role)]). *)

Definition llm_Role : Type := string.

(** Modelled from the spec: the declaration of the constant
    [llm.RoleAssistant] belongs to the framework and is not part of the
    package; the specification fixes the role of a delta to "assistant", and
    the package's test compares a wire role "assistant" against it. *)
Definition llm_RoleAssistant : llm_Role := "assistant".

Record llm_Message : Type := mkMessage {
  Role : llm_Role;
  Content : string
}.

Record llm_ChatRequest : Type := mkChatRequest {
  Messages : list llm_Message
}.

Record llm_ChatResponse : Type := mkChatResponse {
  Message : llm_Message
}.

(** ** Package [openai]: the wire shapes of the transport library *)

Record openai_ChatCompletionMessage : Type := mkWireMessage {
  wire_Role : string;
  wire_Content : string
}.

Record openai_ChatCompletionRequest : Type := mkWireRequest {
  req_Model : string;
  req_Messages : list openai_ChatCompletionMessage;
  req_Stream : bool
}.

Record openai_ChatCompletionChoice : Type := mkChoice {
  choice_Message : openai_ChatCompletionMessage
}.

Record openai_ChatCompletionResponse : Type := mkWireResponse {
  resp_Choices : list openai_ChatCompletionChoice
}.

Record openai_ChatCompletionStreamChoiceDelta : Type := mkDelta {
  delta_Content : string
}.

Record openai_ChatCompletionStreamChoice : Type := mkStreamChoice {
  Delta : openai_ChatCompletionStreamChoiceDelta
}.

Record openai_ChatCompletionStreamResponse : Type := mkChunk {
  chunk_Choices : list openai_ChatCompletionStreamChoice
}.

Record openai_ClientConfig : Type := mkConfig {
  authToken : string;
  cfg_BaseURL : string
}.

(** [openai.DefaultConfig(authToken)]: the library's default API root, which
    the package overwrites straight away. *)
Definition openai_DefaultConfig (token : string) : openai_ClientConfig :=
  {| authToken := token; cfg_BaseURL := "https://api.openai.com/v1" |}.

(** [cfg.BaseURL = root] *)
Definition set_cfg_BaseURL (cfg : openai_ClientConfig) (root : string)
  : openai_ClientConfig :=
  {| authToken := authToken cfg; cfg_BaseURL := root |}.

(** An [openai.Client] object: where it lives and what it was configured
    with.  A [*openai.Client] is an [option openai_Client]. *)
Record openai_Client : Type := mkHandle {
  address : nat;
  config : openai_ClientConfig
}.

(** ** The outside world *)

(** A request handed to the transport. *)
Inductive NetCall : Type :=
| CallCreateChatCompletion
    (oa : option openai_Client) (req : openai_ChatCompletionRequest)
| CallCreateChatCompletionStream
    (oa : option openai_Client) (req : openai_ChatCompletionRequest).

(** [allocated]: how many [openai.Client] objects have been constructed, which
    is also the address of the next one; [calls]: the requests handed to the
    transport so far, oldest first. *)
Record World : Type := mkWorld {
  allocated : nat;
  calls : list NetCall
}.

(** [openai.NewClientWithConfig(cfg)] *)
Definition openai_NewClientWithConfig (cfg : openai_ClientConfig) (w : World)
  : openai_Client * World :=
  ({| address := allocated w; config := cfg |},
   {| allocated := S (allocated w); calls := calls w |}).

(** The transport library as the package sees it.  [cursor] is the state of a
    [*openai.ChatCompletionStream].  What the server answers may depend on
    everything that was sent before, so the two completion calls read the
    history of calls. *)
Class Transport (cursor : Type) : Type := {
  stream_Recv :
    cursor -> (openai_ChatCompletionStreamResponse * option error) * cursor;
  stream_Close : cursor -> option error * cursor;
  CreateChatCompletion :
    list NetCall -> option openai_Client -> openai_ChatCompletionRequest ->
    openai_ChatCompletionResponse * option error;
  CreateChatCompletionStream :
    list NetCall -> option openai_Client -> openai_ChatCompletionRequest ->
    cursor * option error
}.

(** ** Package [vllm] *)

Record Client : Type := mkClient {
  BaseURL : string;
  Model : string;
  APIKey : string;
  oa : option openai_Client
}.

(** [c.oa = h] *)
Definition set_oa (c : Client) (h : option openai_Client) : Client :=
  {| BaseURL := BaseURL c; Model := Model c; APIKey := APIKey c; oa := h |}.

(** The composite literal [&Client{BaseURL: ..., Model: ..., APIKey: ...}] of
    [RegisterModel] and of the example program: the private field stays nil. *)
Definition new_Client (baseURL model apiKey : string) : Client :=
  {| BaseURL := baseURL; Model := model; APIKey := apiKey; oa := None |}.

(** [RegisterModel]'s factory: the model identifier is the registered name. *)
Definition RegisterModel_factory (name baseURL apiKey : string) : Client :=
  new_Client baseURL name apiKey.

(** [(c *Client) newOpenAIClient()] *)
Definition newOpenAIClient (c : Client) (w : World)
  : (option openai_Client * option error) * Client * World :=
  match oa c with
  | Some h => ((Some h, None), c, w)
  | None =>
      if String.eqb (BaseURL c) "" then
        ((None, Some (fmt_Errorf "vllm.Client.BaseURL is empty")), c, w)
      else if String.eqb (Model c) "" then
        ((None, Some (fmt_Errorf "vllm.Client.Model is empty")), c, w)
      else
        let cfg := openai_DefaultConfig (APIKey c) in
        let cfg := set_cfg_BaseURL cfg (BaseURL c ++ "/v1")%string in
        let '(h, w') := openai_NewClientWithConfig cfg w in
        ((Some h, None), set_oa c (Some h), w')
  end.

(** The loop shared by [Chat] and [ChatStream]:
    [for _, m := range req.Messages { messages = append(messages, ...) }],
    starting from an empty slice. *)
Definition toWire (m : llm_Message) : openai_ChatCompletionMessage :=
  {| wire_Role := Role m; wire_Content := Content m |}.

Definition buildMessages (ms : list llm_Message)
  : list openai_ChatCompletionMessage :=
  fold_left (fun messages m => messages ++ [toWire m]) ms [].

(** [(c *Client) Name()] *)
Definition Name (c : Client) : string := Model c.

(** [streamWrapper] holds the transport's cursor and nothing else. *)
Record streamWrapper (cursor : Type) : Type := mkStreamWrapper {
  stream : cursor
}.
Arguments mkStreamWrapper {cursor} _.
Arguments stream {cursor} _.

Section Package.

Context {cursor : Type} {T : Transport cursor}.

(** [oa.CreateChatCompletion(ctx, req)]: the request goes out, the server's
    answer comes back. *)
Definition call_CreateChatCompletion
    (h : option openai_Client) (req : openai_ChatCompletionRequest)
    (w : World)
  : (openai_ChatCompletionResponse * option error) * World :=
  (CreateChatCompletion (calls w) h req,
   {| allocated := allocated w;
      calls := calls w ++ [CallCreateChatCompletion h req] |}).

(** [oa.CreateChatCompletionStream(ctx, req)] *)
Definition call_CreateChatCompletionStream
    (h : option openai_Client) (req : openai_ChatCompletionRequest)
    (w : World)
  : (cursor * option error) * World :=
  (CreateChatCompletionStream (calls w) h req,
   {| allocated := allocated w;
      calls := calls w ++ [CallCreateChatCompletionStream h req] |}).

(** [(c *Client) Chat(ctx, req)] *)
Definition Chat (c : Client) (req : llm_ChatRequest) (w : World)
  : (option llm_ChatResponse * option error) * Client * World :=
  let '((h, err), c, w) := newOpenAIClient c w in
  match err with
  | Some err => ((None, Some err), c, w)
  | None =>
      let messages := buildMessages (Messages req) in
      let '((resp, err), w) :=
        call_CreateChatCompletion h
          {| req_Model := Model c;
             req_Messages := messages;
             req_Stream := false |} w in
      match err with
      | Some err => ((None, Some (fmt_Errorf_w "vllm chat error: " err)), c, w)
      | None =>
          match resp_Choices resp with
          | [] =>
              ((None, Some (fmt_Errorf "vllm: no choices in response")), c, w)
          | choice0 :: _ =>
              let msg := choice_Message choice0 in
              ((Some {| Message := {| Role := wire_Role msg;
                                      Content := wire_Content msg |} |},
                None), c, w)
          end
      end
  end.

(** [(c *Client) ChatStream(ctx, req)] *)
Definition ChatStream (c : Client) (req : llm_ChatRequest) (w : World)
  : (option (streamWrapper cursor) * option error) * Client * World :=
  let '((h, err), c, w) := newOpenAIClient c w in
  match err with
  | Some err => ((None, Some err), c, w)
  | None =>
      let messages := buildMessages (Messages req) in
      let '((stream, err), w) :=
        call_CreateChatCompletionStream h
          {| req_Model := Model c;
             req_Messages := messages;
             req_Stream := true |} w in
      match err with
      | Some err =>
          ((None, Some (fmt_Errorf_w "vllm stream error: " err)), c, w)
      | None => ((Some {| stream := stream |}, None), c, w)
      end
  end.

(** [(s *streamWrapper) Recv()] *)
Definition Recv (s : streamWrapper cursor)
  : (option llm_ChatResponse * option error) * streamWrapper cursor :=
  let '((chunk, err), cur) := stream_Recv (stream s) in
  let s := {| stream := cur |} in
  match err with
  | Some err =>
      if is_EOF err then ((None, Some io_EOF), s) else ((None, Some err), s)
  | None =>
      match chunk_Choices chunk with
      | [] => ((None, None), s)
      | choice0 :: _ =>
          let delta := Delta choice0 in
          if String.eqb (delta_Content delta) "" then ((None, None), s)
          else
            ((Some {| Message := {| Role := llm_RoleAssistant;
                                    Content := delta_Content delta |} |},
              None), s)
      end
  end.

(** [(s *streamWrapper) Close()] *)
Definition Close (s : streamWrapper cursor)
  : option error * streamWrapper cursor :=
  let '(err, cur) := stream_Close (stream s) in
  (err, {| stream := cur |}).

End Package.

(** ** The consumer's side of a stream

    The package's streaming test drives a cursor with the loop
    [if err == io.EOF break; if err != nil fail; if resp == nil continue;
    result += resp.Message.Content].  [classify] is that dispatch, in the
    order the loop tests it; [pulls] is a number of pulls one after the other;
    [collect] is the loop itself, bounded by the number of pulls it may
    make. *)

Inductive Outcome : Type :=
| DONE
| ERROR (err : error)
| EMPTY
| DELTA (m : llm_Message).

Definition classify (r : option llm_ChatResponse * option error) : Outcome :=
  match snd r with
  | Some err => if is_EOF err then DONE else ERROR err
  | None =>
      match fst r with
      | None => EMPTY
      | Some resp => DELTA (Message resp)
      end
  end.

Fixpoint pulls {cursor : Type} {T : Transport cursor}
    (n : nat) (s : streamWrapper cursor)
  : list (option llm_ChatResponse * option error) * streamWrapper cursor :=
  match n with
  | O => ([], s)
  | S n' =>
      let '(r, s1) := Recv s in
      let '(rs, s2) := pulls n' s1 in
      (r :: rs, s2)
  end.

Fixpoint collect {cursor : Type} {T : Transport cursor}
    (fuel : nat) (s : streamWrapper cursor) (result : string)
  : option (string + error) :=
  match fuel with
  | O => None
  | S fuel' =>
      let '(r, s1) := Recv s in
      match classify r with
      | DONE => Some (inl result)
      | ERROR err => Some (inr err)
      | EMPTY => collect fuel' s1 result
      | DELTA m => collect fuel' s1 (result ++ Content m)%string
      end
  end.

(** The four shapes of a pull's result pair. *)
Definition isDelta (r : option llm_ChatResponse * option error) : bool :=
  match r with (Some _, None) => true | _ => false end.
Definition isEmpty (r : option llm_ChatResponse * option error) : bool :=
  match r with (None, None) => true | _ => false end.
Definition isEndOfStream (r : option llm_ChatResponse * option error) : bool :=
  match r with (None, Some err) => is_EOF err | _ => false end.
Definition isFailure (r : option llm_ChatResponse * option error) : bool :=
  match r with (None, Some err) => negb (is_EOF err) | _ => false end.

Definition b2n (b : bool) : nat := if b then 1 else 0.

(** How often the transport handle is asked for, one request after the
    other, as [Chat] and [ChatStream] do at their first line. *)
Fixpoint requestTransport (n : nat) (c : Client) (w : World)
  : list (option openai_Client * option error) * Client * World :=
  match n with
  | O => ([], c, w)
  | S n' =>
      let '(r, c1, w1) := newOpenAIClient c w in
      let '(rs, c2, w2) := requestTransport n' c1 w1 in
      (r :: rs, c2, w2)
  end.

(** ** A scripted transport

    The stand-in for the test server: a cursor is the list of results its
    reads will give, and reads past the end give [io.EOF], as the library does
    once it has seen the [data: [DONE]] line.  The answers of the two
    completion calls are fixed when the transport is built. *)

Definition script : Type :=
  list (openai_ChatCompletionStreamResponse * option error).

Definition script_Recv (s : script)
  : (openai_ChatCompletionStreamResponse * option error) * script :=
  match s with
  | [] => (({| chunk_Choices := [] |}, Some io_EOF), [])
  | event :: rest => (event, rest)
  end.

Definition scriptedTransport
    (chat : openai_ChatCompletionResponse * option error)
    (opened : script * option error)
  : Transport script :=
  {| stream_Recv := script_Recv;
     stream_Close := fun s => (None, s);
     CreateChatCompletion := fun _ _ _ => chat;
     CreateChatCompletionStream := fun _ _ _ => opened |}.

Definition contentChunk (text : string) : openai_ChatCompletionStreamResponse :=
  {| chunk_Choices := [ {| Delta := {| delta_Content := text |} |} ] |}.

Definition wireReply (role text : string) : openai_ChatCompletionChoice :=
  {| choice_Message := {| wire_Role := role; wire_Content := text |} |}.

(** A transport that answers nothing useful: an empty reply and an empty
    stream. *)
Definition silentTransport : Transport script :=
  scriptedTransport ({| resp_Choices := [] |}, None) ([], None).

Definition emptyWorld : World := {| allocated := 0; calls := [] |}.

Definition localClient : Client :=
  new_Client "http://localhost:8001" "mistral" "dummy".

(** The request of the package's tests. *)
Definition hiRequest : llm_ChatRequest :=
  {| Messages := [ {| Role := "user"; Content := "hi" |} ] |}.

(** A server that answers with the reply of the package's first test, with
    and without a second choice after it. *)
Definition replyingTransport : Transport script :=
  scriptedTransport
    ({| resp_Choices := [ wireReply "assistant" "hello from vllm" ] |}, None)
    ([], None).

Definition twoChoiceTransport : Transport script :=
  scriptedTransport
    ({| resp_Choices := [ wireReply "assistant" "hello from vllm";
                          wireReply "system" "second opinion" ] |}, None)
    ([], None).

(** A server that answers every request with status 500. *)
Definition failingTransport : Transport script :=
  scriptedTransport
    ({| resp_Choices := [] |}, Some (errorString "status code: 500"))
    ([], Some (errorString "status code: 500")).

(** The stream of the package's streaming test: two content chunks, then the
    end. *)
Definition helloWorld : script :=
  [ (contentChunk "hello ", None); (contentChunk "world", None) ].

(** A keepalive chunk, a role-only chunk, then content. *)
Definition roleOnlyChunk : openai_ChatCompletionStreamResponse :=
  {| chunk_Choices := [ {| Delta := {| delta_Content := "" |} |} ] |}.

Definition keepaliveChunk : openai_ChatCompletionStreamResponse :=
  {| chunk_Choices := [] |}.

Definition sparseStream : script :=
  [ (keepaliveChunk, None); (roleOnlyChunk, None); (contentChunk "late", None) ].

(** A stream whose second read fails. *)
Definition brokenStream : script :=
  [ (contentChunk "partial", None);
    (keepaliveChunk, Some (errorString "unexpected end of JSON input")) ].

(** ** Sessions and read sequences

    A client is used for a series of calls, a cursor for a series of reads.
    [session] is a series of [Chat] and [ChatStream] calls on one client, each
    result dropped and the client and the world carried along; [requestOf] is
    the request one call is expected to hand to the transport.  [cursorAfter]
    is the cursor after a number of reads, and [readsGive] says what the next
    reads of a cursor return. *)

Inductive Op : Type :=
| OpChat (req : llm_ChatRequest)
| OpChatStream (req : llm_ChatRequest).

Definition requestOf (h : option openai_Client) (model : string) (op : Op)
  : NetCall :=
  match op with
  | OpChat req =>
      CallCreateChatCompletion h
        {| req_Model := model;
           req_Messages := map toWire (Messages req);
           req_Stream := false |}
  | OpChatStream req =>
      CallCreateChatCompletionStream h
        {| req_Model := model;
           req_Messages := map toWire (Messages req);
           req_Stream := true |}
  end.

(** What a chunk offers to the consumer: the delta content of its first
    choice, and nothing when it has no choice. *)
Definition firstContent (chunk : openai_ChatCompletionStreamResponse) : string :=
  match chunk_Choices chunk with
  | [] => ""
  | choice0 :: _ => delta_Content (Delta choice0)
  end.

Definition joined (chunks : list openai_ChatCompletionStreamResponse) : string :=
  fold_right (fun chunk text => (firstContent chunk ++ text)%string) "" chunks.

(** The conversion [Chat] applies to the first choice's message. *)
Definition fromWire (msg : openai_ChatCompletionMessage) : llm_Message :=
  {| Role := wire_Role msg; Content := wire_Content msg |}.

Section Sessions.

Context {cursor : Type} {T : Transport cursor}.

Definition perform (op : Op) (c : Client) (w : World) : Client * World :=
  match op with
  | OpChat req => let '(_, c1, w1) := Chat c req w in (c1, w1)
  | OpChatStream req => let '(_, c1, w1) := ChatStream c req w in (c1, w1)
  end.

Fixpoint session (ops : list Op) (c : Client) (w : World) : Client * World :=
  match ops with
  | [] => (c, w)
  | op :: rest => let '(c1, w1) := perform op c w in session rest c1 w1
  end.

Fixpoint cursorAfter (n : nat) (cur : cursor) : cursor :=
  match n with
  | O => cur
  | S n' => cursorAfter n' (snd (stream_Recv cur))
  end.

Fixpoint readsGive (cur : cursor)
    (events : list (openai_ChatCompletionStreamResponse * option error))
  : Prop :=
  match events with
  | [] => True
  | event :: rest =>
      fst (stream_Recv cur) = event /\ readsGive (snd (stream_Recv cur)) rest
  end.

End Sessions.

(** A server that repeats the first message it was sent. *)
Definition echoTransport : Transport script :=
  {| stream_Recv := script_Recv;
     stream_Close := fun s => (None, s);
     CreateChatCompletion := fun _ _ req =>
       ({| resp_Choices :=
             match req_Messages req with
             | [] => []
             | m :: _ => [ {| choice_Message := m |} ]
             end |}, None);
     CreateChatCompletionStream := fun _ _ _ => ([], None) |}.

(** * Properties *)

(** ** Errors *)

Lemma is_EOF_true : forall e, is_EOF e = true <-> e = io_EOF.
Proof.
  intros e; split.
  - destruct e; simpl; intros H; [reflexivity | discriminate H | discriminate H].
  - intros ->. reflexivity.
Qed.

Lemma is_EOF_false : forall e, is_EOF e = false <-> e <> io_EOF.
Proof.
  intros e; split.
  - intros H Heq. subst e. discriminate H.
  - intros H. destruct e; simpl; [contradiction H | | ]; reflexivity.
Qed.

Lemma Unwrap_fmt_Errorf_w : forall prefix err,
  Unwrap (fmt_Errorf_w prefix err) = Some err.
Proof. reflexivity. Qed.

Lemma Error_fmt_Errorf_w : forall prefix err,
  Error (fmt_Errorf_w prefix err) = (prefix ++ Error err)%string.
Proof. reflexivity. Qed.

(** ** The pull adapter *)

Section RecvFacts.

Context {cursor : Type} {T : Transport cursor}.

(** What a pull does, by what the cursor's read gave. *)

Lemma Recv_read_error : forall (s : streamWrapper cursor) chunk err cur,
  stream_Recv (stream s) = ((chunk, Some err), cur) ->
  Recv s = ((None, Some err), {| stream := cur |}).
Proof.
  intros s chunk err cur Hread. unfold Recv. rewrite Hread.
  destruct (is_EOF err) eqn:Heof; [| reflexivity].
  apply is_EOF_true in Heof. subst err. reflexivity.
Qed.

Lemma Recv_no_choices : forall (s : streamWrapper cursor) chunk cur,
  stream_Recv (stream s) = ((chunk, None), cur) ->
  chunk_Choices chunk = [] ->
  Recv s = ((None, None), {| stream := cur |}).
Proof.
  intros s chunk cur Hread Hnone. unfold Recv. rewrite Hread, Hnone.
  reflexivity.
Qed.

Lemma Recv_empty_content : forall (s : streamWrapper cursor) chunk cur choice0 rest,
  stream_Recv (stream s) = ((chunk, None), cur) ->
  chunk_Choices chunk = choice0 :: rest ->
  delta_Content (Delta choice0) = "" ->
  Recv s = ((None, None), {| stream := cur |}).
Proof.
  intros s chunk cur choice0 rest Hread Hsome Hempty.
  unfold Recv. rewrite Hread, Hsome. cbn zeta. rewrite Hempty.
  reflexivity.
Qed.

Lemma Recv_content : forall (s : streamWrapper cursor) chunk cur choice0 rest,
  stream_Recv (stream s) = ((chunk, None), cur) ->
  chunk_Choices chunk = choice0 :: rest ->
  delta_Content (Delta choice0) <> "" ->
  Recv s =
    ((Some {| Message := {| Role := "assistant";
                            Content := delta_Content (Delta choice0) |} |},
      None),
     {| stream := cur |}).
Proof.
  intros s chunk cur choice0 rest Hread Hsome Hfull.
  unfold Recv. rewrite Hread, Hsome. cbn zeta.
  apply String.eqb_neq in Hfull. rewrite Hfull. reflexivity.
Qed.

(** A pull reads the cursor once and keeps what the read left. *)
Lemma Recv_advances : forall (s : streamWrapper cursor),
  stream (snd (Recv s)) = snd (stream_Recv (stream s)).
Proof.
  intros s. unfold Recv.
  destruct (stream_Recv (stream s)) as [[chunk err] cur]. simpl.
  destruct err as [err|].
  - destruct (is_EOF err); reflexivity.
  - destruct (chunk_Choices chunk) as [|choice0 rest]; [reflexivity|].
    destruct (String.eqb _ _); reflexivity.
Qed.

(** The shape of every result pair. *)
Lemma Recv_shape : forall (s : streamWrapper cursor),
  (exists text,
      text <> "" /\
      fst (Recv s) =
        (Some {| Message := {| Role := llm_RoleAssistant; Content := text |} |},
         None))
  \/ fst (Recv s) = (None, None)
  \/ fst (Recv s) = (None, Some io_EOF)
  \/ (exists err, err <> io_EOF /\ fst (Recv s) = (None, Some err)).
Proof.
  intros s. unfold Recv.
  destruct (stream_Recv (stream s)) as [[chunk err] cur].
  destruct err as [err|].
  - destruct (is_EOF err) eqn:Heof.
    + right; right; left. reflexivity.
    + right; right; right. exists err. split; [|reflexivity].
      apply is_EOF_false. exact Heof.
  - destruct (chunk_Choices chunk) as [|choice0 rest].
    + right; left. reflexivity.
    + cbn zeta. destruct (String.eqb (delta_Content (Delta choice0)) "") eqn:Hc.
      * right; left. reflexivity.
      * left. exists (delta_Content (Delta choice0)). split; [|reflexivity].
        apply String.eqb_neq. exact Hc.
Qed.

Lemma pulls_S : forall n (s : streamWrapper cursor),
  pulls (S n) s =
    (fst (Recv s) :: fst (pulls n (snd (Recv s))),
     snd (pulls n (snd (Recv s)))).
Proof.
  intros n s. simpl. destruct (Recv s) as [r s1]. simpl.
  destruct (pulls n s1) as [rs s2]. reflexivity.
Qed.

End RecvFacts.

(** ** Claims about the pull adapter *)

(** C1.  A chunk whose first choice has non-empty delta content makes one
    pull return one delta: role "assistant", content the chunk's content
    unchanged, no error, and the adapter keeps nothing but the cursor.  So a
    stream of two chunks "hello " and "world" followed by the end of the stream
    gives, in three pulls, two non-empty deltas whose contents put together
    read "hello world", and then [io.EOF]. *)
Theorem Recv_delta_per_content_chunk :
  forall (cursor : Type) (T : Transport cursor),
    (forall (s : streamWrapper cursor) chunk cur choice0 rest,
        stream_Recv (stream s) = ((chunk, None), cur) ->
        chunk_Choices chunk = choice0 :: rest ->
        delta_Content (Delta choice0) <> "" ->
        Recv s =
          ((Some {| Message := {| Role := "assistant";
                                  Content := delta_Content (Delta choice0) |} |},
            None),
           {| stream := cur |}))
    /\
    (forall (s : streamWrapper cursor) chunk1 chunk2 chunk3 cur1 cur2 cur3
            first1 rest1 first2 rest2,
        stream_Recv (stream s) = ((chunk1, None), cur1) ->
        stream_Recv cur1 = ((chunk2, None), cur2) ->
        stream_Recv cur2 = ((chunk3, Some io_EOF), cur3) ->
        chunk_Choices chunk1 = first1 :: rest1 ->
        delta_Content (Delta first1) = "hello " ->
        chunk_Choices chunk2 = first2 :: rest2 ->
        delta_Content (Delta first2) = "world" ->
        pulls 3 s =
          ([ (Some {| Message := {| Role := "assistant"; Content := "hello " |} |},
              None);
             (Some {| Message := {| Role := "assistant"; Content := "world" |} |},
              None);
             (None, Some io_EOF) ],
           {| stream := cur3 |})
        /\ map classify (fst (pulls 3 s)) =
             [ DELTA {| Role := "assistant"; Content := "hello " |};
               DELTA {| Role := "assistant"; Content := "world" |};
               DONE ]
        /\ collect 3 s "" = Some (inl "hello world")).
Proof.
  intros cursor T. split.
  - intros s chunk cur choice0 rest Hread Hsome Hfull.
    exact (Recv_content s chunk cur choice0 rest Hread Hsome Hfull).
  - intros s chunk1 chunk2 chunk3 cur1 cur2 cur3 first1 rest1 first2 rest2
           H1 H2 H3 Hc1 Ht1 Hc2 Ht2.
    assert (R1 : Recv s =
      ((Some {| Message := {| Role := "assistant"; Content := "hello " |} |},
        None), {| stream := cur1 |})).
    { rewrite <- Ht1. apply (Recv_content s chunk1 cur1 first1 rest1 H1 Hc1).
      rewrite Ht1. discriminate. }
    assert (R2 : Recv {| stream := cur1 |} =
      ((Some {| Message := {| Role := "assistant"; Content := "world" |} |},
        None), {| stream := cur2 |})).
    { rewrite <- Ht2.
      apply (Recv_content {| stream := cur1 |} chunk2 cur2 first2 rest2 H2 Hc2).
      rewrite Ht2. discriminate. }
    assert (R3 : Recv {| stream := cur2 |} =
      ((None, Some io_EOF), {| stream := cur3 |})).
    { apply (Recv_read_error {| stream := cur2 |} chunk3 io_EOF cur3 H3). }
    assert (P : pulls 3 s =
      ([ (Some {| Message := {| Role := "assistant"; Content := "hello " |} |},
          None);
         (Some {| Message := {| Role := "assistant"; Content := "world" |} |},
          None);
         (None, Some io_EOF) ],
       {| stream := cur3 |})).
    { rewrite pulls_S, R1. cbn [fst snd].
      rewrite pulls_S, R2. cbn [fst snd].
      rewrite pulls_S, R3. reflexivity. }
    split; [exact P|]. split; [rewrite P; reflexivity|].
    cbn [collect]. rewrite R1. cbn [classify fst snd Message Content].
    rewrite R2. cbn [classify fst snd Message Content].
    rewrite R3. reflexivity.
Qed.

Lemma Recv_delta_per_content_chunk_witness :
  @Recv script silentTransport {| stream := helloWorld |} =
    ((Some {| Message := {| Role := "assistant"; Content := "hello " |} |}, None),
     {| stream := [ (contentChunk "world", None) ] |})
  /\ @collect script silentTransport 3 {| stream := helloWorld |} "" =
       Some (inl "hello world").
Proof.
  split.
  - apply (proj1 (Recv_delta_per_content_chunk script silentTransport)
             {| stream := helloWorld |} (contentChunk "hello ")
             [ (contentChunk "world", None) ]
             {| Delta := {| delta_Content := "hello " |} |} []).
    + reflexivity.
    + reflexivity.
    + simpl. discriminate.
  - apply (proj2 (Recv_delta_per_content_chunk script silentTransport)
             {| stream := helloWorld |}
             (contentChunk "hello ") (contentChunk "world")
             {| chunk_Choices := [] |}
             [ (contentChunk "world", None) ] [] []
             {| Delta := {| delta_Content := "hello " |} |} []
             {| Delta := {| delta_Content := "world" |} |} []);
      reflexivity.
Defined.

(** C2.  A chunk with no choices, or whose first choice has empty delta
    content, makes the pull return [(nil, nil)]: no delta and no error.  The
    stream goes on: the adapter is left holding the cursor as that one read
    left it, and when the next chunk carries content the next pull returns
    it. *)
Theorem Recv_empty_on_non_content_chunk :
  forall (cursor : Type) (T : Transport cursor)
         (s : streamWrapper cursor) chunk cur,
    stream_Recv (stream s) = ((chunk, None), cur) ->
    (chunk_Choices chunk = [] \/
     exists choice0 rest,
       chunk_Choices chunk = choice0 :: rest /\
       delta_Content (Delta choice0) = "") ->
    Recv s = ((None, None), {| stream := cur |})
    /\ classify (fst (Recv s)) = EMPTY
    /\ (forall chunk' cur' first rest,
          stream_Recv cur = ((chunk', None), cur') ->
          chunk_Choices chunk' = first :: rest ->
          delta_Content (Delta first) <> "" ->
          pulls 2 s =
            ([ (None, None);
               (Some {| Message := {| Role := "assistant";
                                      Content := delta_Content (Delta first) |} |},
                None) ],
             {| stream := cur' |})).
Proof.
  intros cursor T s chunk cur Hread Hquiet.
  assert (R : Recv s = ((None, None), {| stream := cur |})).
  { destruct Hquiet as [Hnone | (choice0 & rest & Hsome & Hempty)].
    - exact (Recv_no_choices s chunk cur Hread Hnone).
    - exact (Recv_empty_content s chunk cur choice0 rest Hread Hsome Hempty). }
  split; [exact R|]. split; [rewrite R; reflexivity|].
  intros chunk' cur' first rest Hread' Hsome' Hfull'.
  rewrite pulls_S, R. cbn [fst snd].
  rewrite pulls_S.
  rewrite (Recv_content {| stream := cur |} chunk' cur' first rest Hread' Hsome' Hfull').
  reflexivity.
Qed.

Lemma Recv_empty_on_non_content_chunk_witness :
  (@Recv script silentTransport {| stream := sparseStream |} =
     ((None, None),
      {| stream := [ (roleOnlyChunk, None); (contentChunk "late", None) ] |}))
  /\ (@pulls script silentTransport 2
        {| stream := [ (roleOnlyChunk, None); (contentChunk "late", None) ] |} =
      ([ (None, None);
         (Some {| Message := {| Role := "assistant"; Content := "late" |} |},
          None) ],
       {| stream := [] |})).
Proof.
  split.
  - apply (Recv_empty_on_non_content_chunk script silentTransport
             {| stream := sparseStream |} keepaliveChunk
             [ (roleOnlyChunk, None); (contentChunk "late", None) ]).
    + reflexivity.
    + left. reflexivity.
  - apply (proj2 (proj2
             (Recv_empty_on_non_content_chunk script silentTransport
                {| stream := [ (roleOnlyChunk, None); (contentChunk "late", None) ] |}
                roleOnlyChunk [ (contentChunk "late", None) ]
                eq_refl
                (or_intror
                   (ex_intro _ {| Delta := {| delta_Content := "" |} |}
                      (ex_intro _ [] (conj eq_refl eq_refl))))))
             (contentChunk "late") []
             {| Delta := {| delta_Content := "late" |} |} []).
    + reflexivity.
    + reflexivity.
    + simpl. discriminate.
Defined.

(** C3.  Whatever error the cursor's read reports, the pull returns that very
    error with a nil response.  When it is the sentinel [io.EOF], the consumer
    sees the end of the stream and no failure; when it is anything else, the
    consumer sees that error, unwrapped, and cannot take it for the end of the
    stream.  This holds wherever in the stream the read happens. *)
Theorem Recv_end_of_stream_and_read_error :
  forall (cursor : Type) (T : Transport cursor)
         (s : streamWrapper cursor) chunk err cur,
    stream_Recv (stream s) = ((chunk, Some err), cur) ->
    Recv s = ((None, Some err), {| stream := cur |})
    /\ (err = io_EOF ->
        classify (fst (Recv s)) = DONE /\
        forall e, classify (fst (Recv s)) <> ERROR e)
    /\ (err <> io_EOF ->
        classify (fst (Recv s)) = ERROR err /\
        classify (fst (Recv s)) <> DONE /\
        snd (fst (Recv s)) <> Some io_EOF /\
        isEndOfStream (fst (Recv s)) = false).
Proof.
  intros cursor T s chunk err cur Hread.
  rewrite (Recv_read_error s chunk err cur Hread).
  split; [reflexivity|]. cbn [fst snd classify isEndOfStream]. split.
  - intros ->. split; [reflexivity|]. intros e. discriminate.
  - intros Hne. apply is_EOF_false in Hne. rewrite Hne.
    split; [reflexivity|]. split; [discriminate|]. split; [|reflexivity].
    intros Heq. injection Heq as ->. discriminate Hne.
Qed.

Lemma Recv_end_of_stream_and_read_error_witness :
  (classify (fst (@Recv script silentTransport {| stream := [] |})) = DONE)
  /\ (@pulls script silentTransport 2 {| stream := brokenStream |} =
        ([ (Some {| Message := {| Role := "assistant"; Content := "partial" |} |},
            None);
           (None, Some (errorString "unexpected end of JSON input")) ],
         {| stream := [] |}))
  /\ (classify
        (fst (@Recv script silentTransport {| stream := tl brokenStream |})) =
      ERROR (errorString "unexpected end of JSON input")).
Proof.
  split; [|split].
  - apply (Recv_end_of_stream_and_read_error script silentTransport
             {| stream := [] |} {| chunk_Choices := [] |} io_EOF []
             eq_refl).
    reflexivity.
  - rewrite pulls_S. cbn [Recv brokenStream stream_Recv silentTransport
                           scriptedTransport script_Recv stream].
    simpl. f_equal.
  - apply (Recv_end_of_stream_and_read_error script silentTransport
             {| stream := tl brokenStream |} keepaliveChunk
             (errorString "unexpected end of JSON input") []
             eq_refl).
    discriminate.
Defined.

(** C10.  The result pair of a pull has exactly one of four shapes: a
    response and no error; neither; no response and [io.EOF]; no response and
    another error.  It never carries both a response and an error, and a
    response it carries has role assistant and content that is not empty. *)
Theorem Recv_four_outcomes :
  forall (cursor : Type) (T : Transport cursor) (s : streamWrapper cursor),
    b2n (isDelta (fst (Recv s))) + b2n (isEmpty (fst (Recv s)))
      + b2n (isEndOfStream (fst (Recv s))) + b2n (isFailure (fst (Recv s))) = 1
    /\ ~ (fst (fst (Recv s)) <> None /\ snd (fst (Recv s)) <> None)
    /\ (forall resp,
          fst (fst (Recv s)) = Some resp ->
          Role (Message resp) = llm_RoleAssistant /\
          Content (Message resp) <> "").
Proof.
  intros cursor T s.
  destruct (Recv_shape s)
    as [(text & Hfull & R) | [R | [R | (err & Hne & R)]]]; rewrite R.
  - split; [reflexivity|]. split.
    + intros [_ H]. apply H. reflexivity.
    + intros resp Hresp. cbn [fst] in Hresp. injection Hresp as <-.
      split; [reflexivity | exact Hfull].
  - split; [reflexivity|]. split.
    + intros [H _]. apply H. reflexivity.
    + intros resp Hresp. discriminate Hresp.
  - split; [reflexivity|]. split.
    + intros [H _]. apply H. reflexivity.
    + intros resp Hresp. discriminate Hresp.
  - apply is_EOF_false in Hne. split.
    + cbn [fst snd isDelta isEmpty isEndOfStream isFailure]. rewrite Hne.
      reflexivity.
    + split.
      * intros [H _]. apply H. reflexivity.
      * intros resp Hresp. discriminate Hresp.
Qed.

Lemma Recv_four_outcomes_witness :
  Role (Message {| Message := {| Role := "assistant"; Content := "hello " |} |})
    = llm_RoleAssistant
  /\ Content
       (Message {| Message := {| Role := "assistant"; Content := "hello " |} |})
     <> "".
Proof.
  apply (proj2 (proj2 (Recv_four_outcomes script silentTransport
                         {| stream := helloWorld |}))).
  reflexivity.
Defined.

(** ** The transport handle *)

Lemma newOpenAIClient_cached : forall c h w,
  oa c = Some h ->
  newOpenAIClient c w = ((Some h, None), c, w).
Proof. intros c h w Hoa. unfold newOpenAIClient. rewrite Hoa. reflexivity. Qed.

Lemma newOpenAIClient_no_BaseURL : forall c w,
  oa c = None -> BaseURL c = "" ->
  newOpenAIClient c w =
    ((None, Some (errorString "vllm.Client.BaseURL is empty")), c, w).
Proof.
  intros c w Hoa Hbase. unfold newOpenAIClient. rewrite Hoa, Hbase.
  reflexivity.
Qed.

Lemma newOpenAIClient_no_Model : forall c w,
  oa c = None -> BaseURL c <> "" -> Model c = "" ->
  newOpenAIClient c w =
    ((None, Some (errorString "vllm.Client.Model is empty")), c, w).
Proof.
  intros c w Hoa Hbase Hmodel. unfold newOpenAIClient.
  rewrite Hoa, Hmodel. apply String.eqb_neq in Hbase. rewrite Hbase.
  reflexivity.
Qed.

Lemma newOpenAIClient_builds : forall c w,
  oa c = None -> BaseURL c <> "" -> Model c <> "" ->
  newOpenAIClient c w =
    ((Some {| address := allocated w;
              config := {| authToken := APIKey c;
                           cfg_BaseURL := (BaseURL c ++ "/v1")%string |} |},
      None),
     set_oa c (Some {| address := allocated w;
                       config := {| authToken := APIKey c;
                                    cfg_BaseURL := (BaseURL c ++ "/v1")%string |} |}),
     {| allocated := S (allocated w); calls := calls w |}).
Proof.
  intros c w Hoa Hbase Hmodel. unfold newOpenAIClient. rewrite Hoa.
  apply String.eqb_neq in Hbase. apply String.eqb_neq in Hmodel.
  rewrite Hbase, Hmodel. reflexivity.
Qed.

(** Asking for the handle never touches the wire and never changes the
    configuration's public fields. *)
Lemma newOpenAIClient_frame : forall c w,
  calls (snd (newOpenAIClient c w)) = calls w
  /\ Model (snd (fst (newOpenAIClient c w))) = Model c
  /\ BaseURL (snd (fst (newOpenAIClient c w))) = BaseURL c.
Proof.
  intros c w. unfold newOpenAIClient.
  destruct (oa c); [repeat split|].
  destruct (String.eqb (BaseURL c) ""); [repeat split|].
  destruct (String.eqb (Model c) ""); repeat split.
Qed.

(** A nil handle comes with an error, and a handle comes without one. *)
Lemma newOpenAIClient_result : forall c w,
  (exists h, fst (fst (newOpenAIClient c w)) = (Some h, None))
  \/ (exists err, fst (fst (newOpenAIClient c w)) = (None, Some err)).
Proof.
  intros c w. unfold newOpenAIClient.
  destruct (oa c) as [h|]; [left; exists h; reflexivity|].
  destruct (String.eqb (BaseURL c) ""); [right; eexists; reflexivity|].
  destruct (String.eqb (Model c) ""); [right; eexists; reflexivity|].
  left; eexists; reflexivity.
Qed.

Lemma requestTransport_cached : forall n c h w,
  oa c = Some h ->
  requestTransport n c w = (repeat (Some h, None) n, c, w).
Proof.
  induction n as [|n IH]; intros c h w Hoa; [reflexivity|].
  cbn [requestTransport repeat].
  rewrite (newOpenAIClient_cached c h w Hoa), (IH c h w Hoa). reflexivity.
Qed.

(** ** Request translation *)

Lemma buildMessages_from : forall ms acc,
  fold_left (fun messages m => messages ++ [toWire m]) ms acc =
    acc ++ map toWire ms.
Proof.
  induction ms as [|m ms IH]; intros acc.
  - simpl. rewrite app_nil_r. reflexivity.
  - simpl. rewrite IH, <- app_assoc. reflexivity.
Qed.

Lemma buildMessages_map : forall ms, buildMessages ms = map toWire ms.
Proof. intros ms. unfold buildMessages. apply buildMessages_from. Qed.

(** ** The two calls, by what the handle request gave *)

Section CallFacts.

Context {cursor : Type} {T : Transport cursor}.

Lemma Chat_config_error : forall c req w err c1 w1 h,
  newOpenAIClient c w = ((h, Some err), c1, w1) ->
  Chat c req w = ((None, Some err), c1, w1).
Proof. intros * Hnew. unfold Chat. rewrite Hnew. reflexivity. Qed.

Lemma ChatStream_config_error : forall c req w err c1 w1 h,
  newOpenAIClient c w = ((h, Some err), c1, w1) ->
  ChatStream c req w = ((None, Some err), c1, w1).
Proof. intros * Hnew. unfold ChatStream. rewrite Hnew. reflexivity. Qed.

Lemma Chat_sent : forall c req w h c1 w1,
  newOpenAIClient c w = ((h, None), c1, w1) ->
  Chat c req w =
    (let wire := {| req_Model := Model c1;
                    req_Messages := buildMessages (Messages req);
                    req_Stream := false |} in
     let answer := CreateChatCompletion (calls w1) h wire in
     let w2 := {| allocated := allocated w1;
                  calls := calls w1 ++ [CallCreateChatCompletion h wire] |} in
     match snd answer with
     | Some err => ((None, Some (fmt_Errorf_w "vllm chat error: " err)), c1, w2)
     | None =>
         match resp_Choices (fst answer) with
         | [] => ((None, Some (fmt_Errorf "vllm: no choices in response")), c1, w2)
         | choice0 :: _ =>
             ((Some {| Message :=
                         {| Role := wire_Role (choice_Message choice0);
                            Content := wire_Content (choice_Message choice0) |} |},
               None), c1, w2)
         end
     end).
Proof.
  intros * Hnew. unfold Chat, call_CreateChatCompletion. rewrite Hnew.
  cbn zeta. destruct (CreateChatCompletion _ _ _) as [resp err].
  reflexivity.
Qed.

Lemma ChatStream_sent : forall c req w h c1 w1,
  newOpenAIClient c w = ((h, None), c1, w1) ->
  ChatStream c req w =
    (let wire := {| req_Model := Model c1;
                    req_Messages := buildMessages (Messages req);
                    req_Stream := true |} in
     let answer := CreateChatCompletionStream (calls w1) h wire in
     let w2 := {| allocated := allocated w1;
                  calls := calls w1 ++ [CallCreateChatCompletionStream h wire] |} in
     match snd answer with
     | Some err => ((None, Some (fmt_Errorf_w "vllm stream error: " err)), c1, w2)
     | None => ((Some {| stream := fst answer |}, None), c1, w2)
     end).
Proof.
  intros * Hnew. unfold ChatStream, call_CreateChatCompletionStream.
  rewrite Hnew. cbn zeta.
  destruct (CreateChatCompletionStream _ _ _) as [cur err].
  reflexivity.
Qed.

End CallFacts.

(** ** Claims about the synchronous call *)

(** C4.  When the handle is there and the transport answers without error
    with at least one choice, [Chat] returns one message: the role and the
    content of the first choice.  What the other choices hold does not show:
    any other answer with the same first choice gives the same result. *)
Theorem Chat_returns_first_choice :
  forall (cursor : Type) (T : Transport cursor)
         c req w h c1 w1 resp choice0 rest,
    newOpenAIClient c w = ((h, None), c1, w1) ->
    CreateChatCompletion (calls w1) h
      {| req_Model := Model c1;
         req_Messages := buildMessages (Messages req);
         req_Stream := false |} = (resp, None) ->
    resp_Choices resp = choice0 :: rest ->
    fst (fst (Chat c req w)) =
      (Some {| Message := {| Role := wire_Role (choice_Message choice0);
                             Content := wire_Content (choice_Message choice0) |} |},
       None)
    /\ (forall (cursor' : Type) (T' : Transport cursor') resp' rest',
          @CreateChatCompletion cursor' T' (calls w1) h
            {| req_Model := Model c1;
               req_Messages := buildMessages (Messages req);
               req_Stream := false |} = (resp', None) ->
          resp_Choices resp' = choice0 :: rest' ->
          fst (fst (@Chat cursor' T' c req w)) = fst (fst (@Chat cursor T c req w))).
Proof.
  intros cursor T c req w h c1 w1 resp choice0 rest Hnew Hcall Hsome.
  assert (R : forall (cursor' : Type) (T' : Transport cursor') resp' rest',
             @CreateChatCompletion cursor' T' (calls w1) h
               {| req_Model := Model c1;
                  req_Messages := buildMessages (Messages req);
                  req_Stream := false |} = (resp', None) ->
             resp_Choices resp' = choice0 :: rest' ->
             fst (fst (@Chat cursor' T' c req w)) =
               (Some {| Message :=
                          {| Role := wire_Role (choice_Message choice0);
                             Content := wire_Content (choice_Message choice0) |} |},
                None)).
  { intros cursor' T' resp' rest' Hcall' Hsome'.
    rewrite (Chat_sent c req w h c1 w1 Hnew). cbn zeta.
    rewrite Hcall'. cbn [fst snd]. rewrite Hsome'. reflexivity. }
  split.
  - exact (R cursor T resp rest Hcall Hsome).
  - intros cursor' T' resp' rest' Hcall' Hsome'.
    rewrite (R cursor' T' resp' rest' Hcall' Hsome').
    rewrite (R cursor T resp rest Hcall Hsome). reflexivity.
Qed.

Lemma Chat_returns_first_choice_witness :
  fst (fst (@Chat script twoChoiceTransport localClient hiRequest emptyWorld)) =
    (Some {| Message := {| Role := "assistant"; Content := "hello from vllm" |} |},
     None)
  /\ fst (fst (@Chat script replyingTransport localClient hiRequest emptyWorld)) =
     fst (fst (@Chat script twoChoiceTransport localClient hiRequest emptyWorld)).
Proof.
  pose proof
    (Chat_returns_first_choice script twoChoiceTransport
       localClient hiRequest emptyWorld
       (fst (fst (fst (newOpenAIClient localClient emptyWorld))))
       (snd (fst (newOpenAIClient localClient emptyWorld)))
       (snd (newOpenAIClient localClient emptyWorld))
       {| resp_Choices := [ wireReply "assistant" "hello from vllm";
                            wireReply "system" "second opinion" ] |}
       (wireReply "assistant" "hello from vllm")
       [ wireReply "system" "second opinion" ]
       eq_refl eq_refl eq_refl) as [Hfirst Hrest].
  split.
  - exact Hfirst.
  - apply (Hrest script replyingTransport
             {| resp_Choices := [ wireReply "assistant" "hello from vllm" ] |} []);
      reflexivity.
Defined.

(** C5.  When the handle is there and the transport answers without error but
    with no choice at all, [Chat] fails with the error "vllm: no choices in
    response".  That error is not the one [Chat] makes from a transport
    failure: the latter wraps its cause and reads "vllm chat error: ...", the
    former wraps nothing, and the two differ as values and as texts whatever
    the cause is. *)
Theorem Chat_no_choices_error :
  forall (cursor : Type) (T : Transport cursor) c req w h c1 w1 resp,
    newOpenAIClient c w = ((h, None), c1, w1) ->
    CreateChatCompletion (calls w1) h
      {| req_Model := Model c1;
         req_Messages := buildMessages (Messages req);
         req_Stream := false |} = (resp, None) ->
    resp_Choices resp = [] ->
    fst (fst (Chat c req w)) =
      (None, Some (errorString "vllm: no choices in response"))
    /\ Unwrap (errorString "vllm: no choices in response") = None
    /\ (forall (cursor' : Type) (T' : Transport cursor') resp' cause,
          @CreateChatCompletion cursor' T' (calls w1) h
            {| req_Model := Model c1;
               req_Messages := buildMessages (Messages req);
               req_Stream := false |} = (resp', Some cause) ->
          exists failure,
            fst (fst (@Chat cursor' T' c req w)) = (None, Some failure)
            /\ failure = wrapError ("vllm chat error: " ++ Error cause) cause
            /\ Unwrap failure = Some cause
            /\ failure <> errorString "vllm: no choices in response"
            /\ Error failure <> Error (errorString "vllm: no choices in response")).
Proof.
  intros cursor T c req w h c1 w1 resp Hnew Hcall Hnone.
  split; [|split].
  - rewrite (Chat_sent c req w h c1 w1 Hnew). cbn zeta.
    rewrite Hcall. cbn [fst snd]. rewrite Hnone. reflexivity.
  - reflexivity.
  - intros cursor' T' resp' cause Hcall'.
    exists (wrapError ("vllm chat error: " ++ Error cause) cause).
    split; [|split; [|split; [|split]]].
    + rewrite (Chat_sent c req w h c1 w1 Hnew). cbn zeta.
      rewrite Hcall'. reflexivity.
    + reflexivity.
    + reflexivity.
    + discriminate.
    + simpl. intros Heq. discriminate Heq.
Qed.

Lemma Chat_no_choices_error_witness :
  fst (fst (@Chat script silentTransport localClient hiRequest emptyWorld)) =
    (None, Some (errorString "vllm: no choices in response"))
  /\ fst (fst (@Chat script failingTransport localClient hiRequest emptyWorld)) =
     (None, Some (wrapError "vllm chat error: status code: 500"
                    (errorString "status code: 500"))).
Proof.
  pose proof
    (Chat_no_choices_error script silentTransport
       localClient hiRequest emptyWorld
       (fst (fst (fst (newOpenAIClient localClient emptyWorld))))
       (snd (fst (newOpenAIClient localClient emptyWorld)))
       (snd (newOpenAIClient localClient emptyWorld))
       {| resp_Choices := [] |}
       eq_refl eq_refl eq_refl) as [Hnone [_ Hother]].
  split.
  - exact Hnone.
  - destruct (Hother script failingTransport {| resp_Choices := [] |}
                (errorString "status code: 500") eq_refl)
      as (failure & Hchat & Hfailure & _).
    rewrite Hchat, Hfailure. reflexivity.
Defined.

(** ** Claims about the transport handle and the configuration *)

(** C6.  For a configuration with a non-empty endpoint and a non-empty model,
    built as the package's callers build it, every request for the transport,
    however many, returns one and the same handle: the one constructed at the
    first request, whose API root is the endpoint followed by "/v1", once.
    One object is constructed in all.  And once a client holds a handle, a
    request returns it and changes nothing, whatever the endpoint and model
    fields hold by then: nothing is built and nothing is validated again. *)
Theorem transport_built_once :
  forall (baseURL model apiKey : string) (w : World) (n : nat),
    baseURL <> "" -> model <> "" ->
    (exists h,
        cfg_BaseURL (config h) = (baseURL ++ "/v1")%string
        /\ address h = allocated w
        /\ requestTransport (S n) (new_Client baseURL model apiKey) w =
             (repeat (Some h, None) (S n),
              set_oa (new_Client baseURL model apiKey) (Some h),
              {| allocated := S (allocated w); calls := calls w |}))
    /\ (forall c h w',
          oa c = Some h ->
          newOpenAIClient c w' = ((Some h, None), c, w')).
Proof.
  intros baseURL model apiKey w n Hbase Hmodel. split.
  - exists {| address := allocated w;
              config := {| authToken := apiKey;
                           cfg_BaseURL := (baseURL ++ "/v1")%string |} |}.
    split; [reflexivity|]. split; [reflexivity|].
    cbn [requestTransport].
    rewrite (newOpenAIClient_builds (new_Client baseURL model apiKey) w
               eq_refl Hbase Hmodel).
    cbn [new_Client BaseURL Model APIKey].
    rewrite requestTransport_cached with
      (h := {| address := allocated w;
               config := {| authToken := apiKey;
                            cfg_BaseURL := (baseURL ++ "/v1")%string |} |});
      reflexivity.
  - intros c h w' Hoa. exact (newOpenAIClient_cached c h w' Hoa).
Qed.

Lemma transport_built_once_witness :
  (exists h,
      cfg_BaseURL (config h) = "http://localhost:8001/v1"
      /\ address h = 0
      /\ requestTransport 3 localClient emptyWorld =
           ([ (Some h, None); (Some h, None); (Some h, None) ],
            set_oa localClient (Some h),
            {| allocated := 1; calls := [] |}))
  /\ newOpenAIClient
       {| BaseURL := ""; Model := ""; APIKey := "";
          oa := Some {| address := 7;
                        config := openai_DefaultConfig "test-key" |} |}
       emptyWorld =
     ((Some {| address := 7; config := openai_DefaultConfig "test-key" |}, None),
      {| BaseURL := ""; Model := ""; APIKey := "";
         oa := Some {| address := 7;
                       config := openai_DefaultConfig "test-key" |} |},
      emptyWorld).
Proof.
  assert (Hbase : "http://localhost:8001" <> "") by discriminate.
  assert (Hmodel : "mistral" <> "") by discriminate.
  destruct (transport_built_once "http://localhost:8001" "mistral" "dummy"
              emptyWorld 2 Hbase Hmodel) as [Hfresh Hcached].
  split.
  - exact Hfresh.
  - apply Hcached. reflexivity.
Defined.

(** C7.  A client that holds no handle and whose endpoint or model is the
    empty string makes [Chat] and [ChatStream] fail with the configuration
    error of the field found empty.  The client and the world come back as
    they were: no object was constructed and no request was handed to the
    transport. *)
Theorem config_error_before_any_call :
  forall (cursor : Type) (T : Transport cursor) c req w,
    oa c = None ->
    BaseURL c = "" \/ Model c = "" ->
    exists err,
      (err = errorString "vllm.Client.BaseURL is empty" \/
       err = errorString "vllm.Client.Model is empty")
      /\ Chat c req w = ((None, Some err), c, w)
      /\ ChatStream c req w = ((None, Some err), c, w)
      /\ calls (snd (Chat c req w)) = calls w
      /\ calls (snd (ChatStream c req w)) = calls w.
Proof.
  intros cursor T c req w Hoa Hempty.
  assert (Hnew : exists err,
             (err = errorString "vllm.Client.BaseURL is empty" \/
              err = errorString "vllm.Client.Model is empty")
             /\ newOpenAIClient c w = ((None, Some err), c, w)).
  { destruct (string_dec (BaseURL c) "") as [Hbase | Hbase].
    - eexists. split; [left; reflexivity|].
      exact (newOpenAIClient_no_BaseURL c w Hoa Hbase).
    - destruct Hempty as [Hb | Hmodel]; [contradiction|].
      eexists. split; [right; reflexivity|].
      exact (newOpenAIClient_no_Model c w Hoa Hbase Hmodel). }
  destruct Hnew as (err & Hwhich & Hnew).
  exists err. split; [exact Hwhich|].
  rewrite (Chat_config_error c req w err c w None Hnew).
  rewrite (ChatStream_config_error c req w err c w None Hnew).
  repeat split.
Qed.

Lemma config_error_before_any_call_witness :
  exists err,
    (err = errorString "vllm.Client.BaseURL is empty" \/
     err = errorString "vllm.Client.Model is empty")
    /\ @Chat script replyingTransport
         (new_Client "http://localhost:8001" "" "dummy") hiRequest emptyWorld =
       ((None, Some err), new_Client "http://localhost:8001" "" "dummy", emptyWorld)
    /\ @ChatStream script replyingTransport
         (new_Client "http://localhost:8001" "" "dummy") hiRequest emptyWorld =
       ((None, Some err), new_Client "http://localhost:8001" "" "dummy", emptyWorld)
    /\ calls (snd (@Chat script replyingTransport
                     (new_Client "http://localhost:8001" "" "dummy")
                     hiRequest emptyWorld)) = calls emptyWorld
    /\ calls (snd (@ChatStream script replyingTransport
                     (new_Client "http://localhost:8001" "" "dummy")
                     hiRequest emptyWorld)) = calls emptyWorld.
Proof.
  apply (config_error_before_any_call script replyingTransport
           (new_Client "http://localhost:8001" "" "dummy") hiRequest emptyWorld).
  - reflexivity.
  - right. reflexivity.
Defined.

(** ** Claims about opening a stream *)

(** C8.  When the handle is there and the transport reports an error on
    opening the stream, [ChatStream] returns no cursor and the error "vllm
    stream error: ..." wrapping that cause.  On every path of [ChatStream] the
    cursor is nil exactly when the error is not. *)
Theorem ChatStream_open_failure :
  forall (cursor : Type) (T : Transport cursor) c req w h c1 w1 cur cause,
    newOpenAIClient c w = ((h, None), c1, w1) ->
    CreateChatCompletionStream (calls w1) h
      {| req_Model := Model c1;
         req_Messages := buildMessages (Messages req);
         req_Stream := true |} = (cur, Some cause) ->
    fst (fst (ChatStream c req w)) =
      (None, Some (wrapError ("vllm stream error: " ++ Error cause) cause))
    /\ Unwrap (wrapError ("vllm stream error: " ++ Error cause) cause) = Some cause
    /\ (forall c' req' w',
          fst (fst (fst (ChatStream c' req' w'))) = None <->
          snd (fst (fst (ChatStream c' req' w'))) <> None).
Proof.
  intros cursor T c req w h c1 w1 cur cause Hnew Hopen.
  split; [|split].
  - rewrite (ChatStream_sent c req w h c1 w1 Hnew). cbn zeta.
    rewrite Hopen. reflexivity.
  - reflexivity.
  - intros c' req' w'.
    destruct (newOpenAIClient c' w') as [[[h' [err'|]] c1'] w1'] eqn:Hnew'.
    + rewrite (ChatStream_config_error c' req' w' err' c1' w1' h' Hnew').
      cbn [fst snd]. split; [discriminate | reflexivity].
    + rewrite (ChatStream_sent c' req' w' h' c1' w1' Hnew'). cbn zeta.
      destruct (snd (CreateChatCompletionStream _ _ _)) as [err''|];
        cbn [fst snd].
      * split; [discriminate | reflexivity].
      * split; [discriminate | intros Hne; contradiction Hne; reflexivity].
Qed.

Lemma ChatStream_open_failure_witness :
  fst (fst (@ChatStream script failingTransport localClient hiRequest emptyWorld))
    = (None, Some (wrapError "vllm stream error: status code: 500"
                     (errorString "status code: 500"))).
Proof.
  apply (proj1
           (ChatStream_open_failure script failingTransport
              localClient hiRequest emptyWorld
              (fst (fst (fst (newOpenAIClient localClient emptyWorld))))
              (snd (fst (newOpenAIClient localClient emptyWorld)))
              (snd (newOpenAIClient localClient emptyWorld))
              [] (errorString "status code: 500")
              eq_refl eq_refl)).
Defined.

(** ** Claims about request translation *)

(** C9.  The wire messages are the request's messages one for one: as many,
    in the same order, each with the source's role as a plain string and the
    source's content.  That list, with the configured model, is what [Chat]
    hands to the transport with the streaming flag off and what [ChatStream]
    hands to it with the flag on, for every request, the empty one included;
    each call hands over one request, or none when the handle could not be
    had. *)
Theorem request_translation_preserved :
  forall (cursor : Type) (T : Transport cursor) c req w,
    length (buildMessages (Messages req)) = length (Messages req)
    /\ (forall i,
          nth_error (buildMessages (Messages req)) i =
          option_map
            (fun m => {| wire_Role := Role m; wire_Content := Content m |})
            (nth_error (Messages req) i))
    /\ buildMessages [] = []
    /\ calls (snd (Chat c req w)) =
         calls w ++
         match fst (fst (newOpenAIClient c w)) with
         | (h, None) =>
             [ CallCreateChatCompletion h
                 {| req_Model := Model c;
                    req_Messages := map toWire (Messages req);
                    req_Stream := false |} ]
         | (_, Some _) => []
         end
    /\ calls (snd (ChatStream c req w)) =
         calls w ++
         match fst (fst (newOpenAIClient c w)) with
         | (h, None) =>
             [ CallCreateChatCompletionStream h
                 {| req_Model := Model c;
                    req_Messages := map toWire (Messages req);
                    req_Stream := true |} ]
         | (_, Some _) => []
         end.
Proof.
  intros cursor T c req w.
  split; [|split; [|split; [|split]]].
  - rewrite buildMessages_map. apply length_map.
  - intros i. rewrite buildMessages_map. apply nth_error_map.
  - reflexivity.
  - destruct (newOpenAIClient_frame c w) as (Hcalls & Hmodel & _).
    destruct (newOpenAIClient c w) as [[[h [err|]] c1] w1] eqn:Hnew;
      cbn [fst snd] in *.
    + rewrite (Chat_config_error c req w err c1 w1 h Hnew). cbn [snd].
      rewrite app_nil_r. exact Hcalls.
    + rewrite (Chat_sent c req w h c1 w1 Hnew). cbn zeta.
      rewrite buildMessages_map, Hmodel, <- Hcalls.
      destruct (snd (CreateChatCompletion _ _ _)) as [e|]; [reflexivity|].
      destruct (resp_Choices _); reflexivity.
  - destruct (newOpenAIClient_frame c w) as (Hcalls & Hmodel & _).
    destruct (newOpenAIClient c w) as [[[h [err|]] c1] w1] eqn:Hnew;
      cbn [fst snd] in *.
    + rewrite (ChatStream_config_error c req w err c1 w1 h Hnew). cbn [snd].
      rewrite app_nil_r. exact Hcalls.
    + rewrite (ChatStream_sent c req w h c1 w1 Hnew). cbn zeta.
      rewrite buildMessages_map, Hmodel, <- Hcalls.
      destruct (snd (CreateChatCompletionStream _ _ _)) as [e|]; reflexivity.
Qed.


(** * Further properties of the package *)

(** ** Results and errors of the two calls *)

Section CallResults.

Context {cursor : Type} {T : Transport cursor}.

(** [Chat] returns a response or an error, never both and never neither. *)
Theorem Chat_response_xor_error : forall c req w,
  (exists resp, fst (fst (Chat c req w)) = (Some resp, None))
  \/ (exists err, fst (fst (Chat c req w)) = (None, Some err)).
Proof.
  intros c req w.
  destruct (newOpenAIClient c w) as [[[h [err|]] c1] w1] eqn:Hnew.
  - right. exists err.
    rewrite (Chat_config_error c req w err c1 w1 h Hnew). reflexivity.
  - rewrite (Chat_sent c req w h c1 w1 Hnew). cbn zeta.
    destruct (snd (CreateChatCompletion _ _ _)) as [cause|].
    + right. eexists. reflexivity.
    + destruct (resp_Choices _) as [|choice0 rest].
      * right. eexists. reflexivity.
      * left. eexists. reflexivity.
Qed.



(** Whatever the transport answers, [Chat] and [ChatStream] leave the client
    exactly as the request for the handle left it, and construct no object
    beyond the one that request may have constructed.  A failed call therefore
    keeps the handle: nothing is reset and nothing is rebuilt afterwards. *)
Theorem calls_only_memoise : forall c req w,
  snd (fst (Chat c req w)) = snd (fst (newOpenAIClient c w))
  /\ allocated (snd (Chat c req w)) = allocated (snd (newOpenAIClient c w))
  /\ snd (fst (ChatStream c req w)) = snd (fst (newOpenAIClient c w))
  /\ allocated (snd (ChatStream c req w)) = allocated (snd (newOpenAIClient c w)).
Proof.
  intros c req w.
  destruct (newOpenAIClient c w) as [[[h [err|]] c1] w1] eqn:Hnew.
  - rewrite (Chat_config_error c req w err c1 w1 h Hnew).
    rewrite (ChatStream_config_error c req w err c1 w1 h Hnew).
    repeat split.
  - rewrite (Chat_sent c req w h c1 w1 Hnew).
    rewrite (ChatStream_sent c req w h c1 w1 Hnew). cbn zeta.
    destruct (snd (CreateChatCompletion _ _ _));
      [|destruct (resp_Choices _)];
      (destruct (snd (CreateChatCompletionStream _ _ _)); repeat split).
Qed.

(** On a client without a handle the endpoint is looked at first: [Chat]
    fails with the endpoint's error exactly when the endpoint is empty, the
    model being empty or not, and with the model's error exactly when the
    endpoint is not empty and the model is. *)
Theorem validation_order : forall c req w,
  oa c = None ->
  (fst (fst (Chat c req w)) =
     (None, Some (errorString "vllm.Client.BaseURL is empty"))
   <-> BaseURL c = "")
  /\ (fst (fst (Chat c req w)) =
        (None, Some (errorString "vllm.Client.Model is empty"))
      <-> BaseURL c <> "" /\ Model c = "").
Proof.
  intros c req w Hoa.
  destruct (string_dec (BaseURL c) "") as [Hbase | Hbase].
  - rewrite (Chat_config_error c req w _ c w None
               (newOpenAIClient_no_BaseURL c w Hoa Hbase)).
    cbn [fst]. split.
    + split; [intros _; exact Hbase | reflexivity].
    + split; [discriminate | intros [Hne _]; contradiction].
  - destruct (string_dec (Model c) "") as [Hmodel | Hmodel].
    + rewrite (Chat_config_error c req w _ c w None
                 (newOpenAIClient_no_Model c w Hoa Hbase Hmodel)).
      cbn [fst]. split.
      * split; [discriminate | intros Hb; contradiction].
      * split; [intros _; split; assumption | reflexivity].
    + rewrite (Chat_sent c req w _ _ _
                 (newOpenAIClient_builds c w Hoa Hbase Hmodel)).
      cbn zeta.
      destruct (snd (CreateChatCompletion _ _ _)) as [cause|];
        [|destruct (resp_Choices _)]; cbn [fst];
        (split; (split; [discriminate|]));
        try (intros Hb; contradiction);
        intros [_ Hm]; contradiction.
Qed.

End CallResults.



Lemma validation_order_witness :
  (fst (fst (@Chat script replyingTransport (new_Client "" "" "dummy")
               hiRequest emptyWorld)) =
     (None, Some (errorString "vllm.Client.BaseURL is empty"))
   <-> BaseURL (new_Client "" "" "dummy") = "")
  /\ (fst (fst (@Chat script replyingTransport (new_Client "" "" "dummy")
                  hiRequest emptyWorld)) =
        (None, Some (errorString "vllm.Client.Model is empty"))
      <-> BaseURL (new_Client "" "" "dummy") <> ""
          /\ Model (new_Client "" "" "dummy") = "").
Proof.
  apply (@validation_order script replyingTransport (new_Client "" "" "dummy")
           hiRequest emptyWorld).
  reflexivity.
Defined.

(** ** A client over a series of calls *)

Section SessionFacts.

Context {cursor : Type} {T : Transport cursor}.

Lemma perform_with_handle : forall op c h w,
  oa c = Some h ->
  perform op c w =
    (c, {| allocated := allocated w;
           calls := calls w ++ [requestOf (Some h) (Model c) op] |}).
Proof.
  intros op c h w Hoa. unfold perform. destruct op as [req | req].
  - rewrite (Chat_sent c req w (Some h) c w (newOpenAIClient_cached c h w Hoa)).
    cbn zeta. rewrite buildMessages_map. cbn [requestOf].
    destruct (snd (CreateChatCompletion _ _ _));
      [|destruct (resp_Choices _)]; reflexivity.
  - rewrite (ChatStream_sent c req w (Some h) c w
               (newOpenAIClient_cached c h w Hoa)).
    cbn zeta. rewrite buildMessages_map. cbn [requestOf].
    destruct (snd (CreateChatCompletionStream _ _ _)); reflexivity.
Qed.

Lemma session_with_handle : forall ops c h w,
  oa c = Some h ->
  session ops c w =
    (c, {| allocated := allocated w;
           calls := calls w ++ map (requestOf (Some h) (Model c)) ops |}).
Proof.
  induction ops as [|op ops IH]; intros c h w Hoa.
  - cbn [session map]. rewrite app_nil_r. destruct w; reflexivity.
  - cbn [session map]. rewrite (perform_with_handle op c h w Hoa).
    rewrite (IH c h _ Hoa). cbn [allocated calls].
    rewrite <- app_assoc. reflexivity.
Qed.

(** A client built with a non-empty endpoint and model and then used for any
    series of [Chat] and [ChatStream] calls, whatever the server answers to
    each: one handle is constructed, at the first call; every call hands the
    transport one request, in the order of the calls, each carrying that
    handle, the model, and the call's messages translated; nothing is sent
    twice and nothing is left out. *)
Theorem session_shares_one_handle :
  forall baseURL model apiKey w op ops,
    baseURL <> "" -> model <> "" ->
    session (op :: ops) (new_Client baseURL model apiKey) w =
      (set_oa (new_Client baseURL model apiKey)
         (Some {| address := allocated w;
                  config := {| authToken := apiKey;
                               cfg_BaseURL := (baseURL ++ "/v1")%string |} |}),
       {| allocated := S (allocated w);
          calls :=
            calls w ++
            map (requestOf
                   (Some {| address := allocated w;
                            config := {| authToken := apiKey;
                                         cfg_BaseURL := (baseURL ++ "/v1")%string |} |})
                   model)
                (op :: ops) |}).
Proof.
  intros baseURL model apiKey w op ops Hbase Hmodel.
  set (c := new_Client baseURL model apiKey).
  set (h := {| address := allocated w;
               config := {| authToken := apiKey;
                            cfg_BaseURL := (baseURL ++ "/v1")%string |} |}).
  assert (Hnew : newOpenAIClient c w =
                   ((Some h, None), set_oa c (Some h),
                    {| allocated := S (allocated w); calls := calls w |})).
  { exact (newOpenAIClient_builds c w eq_refl Hbase Hmodel). }
  assert (Hfirst : perform op c w =
                     (set_oa c (Some h),
                      {| allocated := S (allocated w);
                         calls := calls w ++ [requestOf (Some h) model op] |})).
  { unfold perform. destruct op as [req | req].
    - rewrite (Chat_sent c req w _ _ _ Hnew). cbn zeta.
      rewrite buildMessages_map. cbn [requestOf set_oa Model allocated calls].
      destruct (snd (CreateChatCompletion _ _ _));
        [|destruct (resp_Choices _)]; reflexivity.
    - rewrite (ChatStream_sent c req w _ _ _ Hnew). cbn zeta.
      rewrite buildMessages_map. cbn [requestOf set_oa Model allocated calls].
      destruct (snd (CreateChatCompletionStream _ _ _)); reflexivity. }
  cbn [session]. rewrite Hfirst.
  rewrite (session_with_handle ops (set_oa c (Some h)) h _ eq_refl).
  cbn [allocated calls map set_oa Model]. rewrite <- app_assoc. reflexivity.
Qed.

(** Once a client holds a handle, its endpoint and its credential are never
    read again, while its model is read at every call: two clients with the
    same handle and the same model get the same results from [Chat] and
    [ChatStream] and hand the transport the same requests, whatever their
    endpoints and credentials are. *)
Theorem endpoint_and_key_frozen_after_build :
  forall c c' req w h,
    oa c = Some h -> oa c' = Some h -> Model c = Model c' ->
    fst (fst (Chat c req w)) = fst (fst (Chat c' req w))
    /\ snd (Chat c req w) = snd (Chat c' req w)
    /\ fst (fst (ChatStream c req w)) = fst (fst (ChatStream c' req w))
    /\ snd (ChatStream c req w) = snd (ChatStream c' req w)
    /\ calls (snd (Chat c req w)) =
         calls w ++ [requestOf (Some h) (Model c) (OpChat req)].
Proof.
  intros c c' req w h Hoa Hoa' Hmodel.
  rewrite (Chat_sent c req w (Some h) c w (newOpenAIClient_cached c h w Hoa)).
  rewrite (Chat_sent c' req w (Some h) c' w (newOpenAIClient_cached c' h w Hoa')).
  rewrite (ChatStream_sent c req w (Some h) c w
             (newOpenAIClient_cached c h w Hoa)).
  rewrite (ChatStream_sent c' req w (Some h) c' w
             (newOpenAIClient_cached c' h w Hoa')).
  cbn zeta. rewrite <- Hmodel. rewrite buildMessages_map. cbn [requestOf].
  destruct (snd (CreateChatCompletion _ _ _));
    [|destruct (resp_Choices _)];
    (destruct (snd (CreateChatCompletionStream _ _ _)); repeat split).
Qed.

(** The client that the factory of [RegisterModel] makes has the registered
    name as its model: [Name] returns it, and with a non-empty endpoint a
    non-empty name is the model of the request [Chat] hands to the transport,
    through a handle rooted at the endpoint followed by "/v1", while an empty
    name makes [Chat] fail with the model's configuration error. *)
Theorem registered_name_is_the_model :
  forall name baseURL apiKey req w,
    baseURL <> "" ->
    Name (RegisterModel_factory name baseURL apiKey) = name
    /\ (name <> "" ->
        calls (snd (Chat (RegisterModel_factory name baseURL apiKey) req w)) =
          calls w ++
          [ CallCreateChatCompletion
              (Some {| address := allocated w;
                       config := {| authToken := apiKey;
                                    cfg_BaseURL := (baseURL ++ "/v1")%string |} |})
              {| req_Model := name;
                 req_Messages := map toWire (Messages req);
                 req_Stream := false |} ])
    /\ (name = "" ->
        Chat (RegisterModel_factory name baseURL apiKey) req w =
          ((None, Some (errorString "vllm.Client.Model is empty")),
           RegisterModel_factory name baseURL apiKey, w)).
Proof.
  intros name baseURL apiKey req w Hbase.
  split; [reflexivity|]. split.
  - intros Hname.
    rewrite (Chat_sent (RegisterModel_factory name baseURL apiKey) req w _ _ _
               (newOpenAIClient_builds
                  (RegisterModel_factory name baseURL apiKey) w
                  eq_refl Hbase Hname)).
    cbn zeta. rewrite buildMessages_map.
    destruct (snd (CreateChatCompletion _ _ _));
      [|destruct (resp_Choices _)]; reflexivity.
  - intros Hname.
    apply (Chat_config_error (RegisterModel_factory name baseURL apiKey) req w
             _ _ w None).
    exact (newOpenAIClient_no_Model
             (RegisterModel_factory name baseURL apiKey) w
             eq_refl Hbase Hname).
Qed.

(** When the first choice of the server's answer carries the wire form of a
    message, [Chat] returns that very message: the conversion applied to
    replies undoes the one applied to requests, role and content alike. *)
Theorem Chat_reply_round_trip :
  forall c req w h c1 w1 resp m rest,
    newOpenAIClient c w = ((h, None), c1, w1) ->
    CreateChatCompletion (calls w1) h
      {| req_Model := Model c1;
         req_Messages := buildMessages (Messages req);
         req_Stream := false |} = (resp, None) ->
    resp_Choices resp = {| choice_Message := toWire m |} :: rest ->
    fst (fst (Chat c req w)) = (Some {| Message := m |}, None).
Proof.
  intros c req w h c1 w1 resp m rest Hnew Hcall Hchoices.
  rewrite (Chat_sent c req w h c1 w1 Hnew). cbn zeta.
  rewrite Hcall. cbn [fst snd]. rewrite Hchoices.
  destruct m as [role content]. reflexivity.
Qed.

End SessionFacts.

Lemma session_shares_one_handle_witness :
  @session script failingTransport
    [ OpChat hiRequest; OpChatStream hiRequest; OpChat hiRequest ]
    localClient emptyWorld =
  (set_oa localClient
     (Some {| address := 0;
              config := {| authToken := "dummy";
                           cfg_BaseURL := "http://localhost:8001/v1" |} |}),
   {| allocated := 1;
      calls :=
        map (requestOf
               (Some {| address := 0;
                        config := {| authToken := "dummy";
                                     cfg_BaseURL := "http://localhost:8001/v1" |} |})
               "mistral")
            [ OpChat hiRequest; OpChatStream hiRequest; OpChat hiRequest ] |}).
Proof.
  assert (Hbase : "http://localhost:8001" <> "") by discriminate.
  assert (Hmodel : "mistral" <> "") by discriminate.
  exact (@session_shares_one_handle script failingTransport
           "http://localhost:8001" "mistral" "dummy" emptyWorld
           (OpChat hiRequest) [ OpChatStream hiRequest; OpChat hiRequest ]
           Hbase Hmodel).
Defined.

Lemma endpoint_and_key_frozen_after_build_witness :
  fst (fst (@Chat script replyingTransport
              {| BaseURL := "http://old:8001"; Model := "mistral";
                 APIKey := "k1";
                 oa := Some {| address := 0;
                               config := openai_DefaultConfig "k1" |} |}
              hiRequest emptyWorld)) =
  fst (fst (@Chat script replyingTransport
              {| BaseURL := ""; Model := "mistral"; APIKey := "k2";
                 oa := Some {| address := 0;
                               config := openai_DefaultConfig "k1" |} |}
              hiRequest emptyWorld)).
Proof.
  apply (@endpoint_and_key_frozen_after_build script replyingTransport
           {| BaseURL := "http://old:8001"; Model := "mistral"; APIKey := "k1";
              oa := Some {| address := 0; config := openai_DefaultConfig "k1" |} |}
           {| BaseURL := ""; Model := "mistral"; APIKey := "k2";
              oa := Some {| address := 0; config := openai_DefaultConfig "k1" |} |}
           hiRequest emptyWorld
           {| address := 0; config := openai_DefaultConfig "k1" |}
           eq_refl eq_refl eq_refl).
Defined.

Lemma registered_name_is_the_model_witness :
  calls (snd (@Chat script replyingTransport
                (RegisterModel_factory "mistral" "http://localhost:8001" "dummy")
                hiRequest emptyWorld)) =
    [ CallCreateChatCompletion
        (Some {| address := 0;
                 config := {| authToken := "dummy";
                              cfg_BaseURL := "http://localhost:8001/v1" |} |})
        {| req_Model := "mistral";
           req_Messages := [ {| wire_Role := "user"; wire_Content := "hi" |} ];
           req_Stream := false |} ]
  /\ @Chat script replyingTransport
       (RegisterModel_factory "" "http://localhost:8001" "dummy")
       hiRequest emptyWorld =
     ((None, Some (errorString "vllm.Client.Model is empty")),
      RegisterModel_factory "" "http://localhost:8001" "dummy", emptyWorld).
Proof.
  assert (Hbase : "http://localhost:8001" <> "") by discriminate.
  split.
  - apply (proj1 (proj2
             (@registered_name_is_the_model script replyingTransport
                "mistral" "http://localhost:8001" "dummy" hiRequest emptyWorld
                Hbase))).
    discriminate.
  - apply (proj2 (proj2
             (@registered_name_is_the_model script replyingTransport
                "" "http://localhost:8001" "dummy" hiRequest emptyWorld
                Hbase))).
    reflexivity.
Defined.

Lemma Chat_reply_round_trip_witness :
  fst (fst (@Chat script echoTransport localClient hiRequest emptyWorld)) =
    (Some {| Message := {| Role := "user"; Content := "hi" |} |}, None).
Proof.
  apply (@Chat_reply_round_trip script echoTransport
           localClient hiRequest emptyWorld
           (fst (fst (fst (newOpenAIClient localClient emptyWorld))))
           (snd (fst (newOpenAIClient localClient emptyWorld)))
           (snd (newOpenAIClient localClient emptyWorld))
           {| resp_Choices :=
                [ {| choice_Message := toWire {| Role := "user"; Content := "hi" |} |} ] |}
           {| Role := "user"; Content := "hi" |} []
           eq_refl eq_refl eq_refl).
Defined.

(** ** Translation of a conversation *)

Lemma fromWire_toWire : forall m, fromWire (toWire m) = m.
Proof. intros [role content]. reflexivity. Qed.

(** The translation loses nothing and works message by message: two
    conversations with the same wire form are the same conversation, and the
    wire form of a conversation extended by further messages is the wire form
    of the conversation extended by the wire forms of those messages. *)
Theorem buildMessages_lossless : forall ms1 ms2,
  buildMessages (ms1 ++ ms2) = buildMessages ms1 ++ buildMessages ms2
  /\ (buildMessages ms1 = buildMessages ms2 -> ms1 = ms2).
Proof.
  intros ms1 ms2. rewrite !buildMessages_map. split.
  - apply map_app.
  - intros Hsame.
    assert (Hback : forall ms, map fromWire (map toWire ms) = ms).
    { intros ms. rewrite map_map. rewrite <- (map_id ms) at 2.
      apply map_ext. exact fromWire_toWire. }
    rewrite <- (Hback ms1), <- (Hback ms2), Hsame. reflexivity.
Qed.

Lemma buildMessages_lossless_witness :
  Messages hiRequest = [ {| Role := "user"; Content := "hi" |} ].
Proof.
  apply (proj2 (buildMessages_lossless
                  (Messages hiRequest)
                  [ {| Role := "user"; Content := "hi" |} ])).
  reflexivity.
Defined.

(** ** A cursor over a series of pulls *)

Lemma append_empty_r : forall s : string, (s ++ "")%string = s.
Proof.
  induction s as [|a s IH]; [reflexivity|]. simpl. rewrite IH. reflexivity.
Qed.

Lemma append_assoc_s : forall s t u : string,
  ((s ++ t) ++ u)%string = (s ++ (t ++ u))%string.
Proof.
  induction s as [|a s IH]; intros t u; [reflexivity|].
  simpl. rewrite IH. reflexivity.
Qed.

Section StreamFacts.

Context {cursor : Type} {T : Transport cursor}.

Lemma Recv_quiet : forall (s : streamWrapper cursor) chunk cur,
  stream_Recv (stream s) = ((chunk, None), cur) ->
  firstContent chunk = "" ->
  Recv s = ((None, None), {| stream := cur |}).
Proof.
  intros s chunk cur Hread Hquiet. unfold firstContent in Hquiet.
  destruct (chunk_Choices chunk) as [|choice0 rest] eqn:Hchoices.
  - exact (Recv_no_choices s chunk cur Hread Hchoices).
  - exact (Recv_empty_content s chunk cur choice0 rest Hread Hchoices Hquiet).
Qed.

Lemma Recv_speaks : forall (s : streamWrapper cursor) chunk cur,
  stream_Recv (stream s) = ((chunk, None), cur) ->
  firstContent chunk <> "" ->
  Recv s =
    ((Some {| Message := {| Role := "assistant";
                            Content := firstContent chunk |} |}, None),
     {| stream := cur |}).
Proof.
  intros s chunk cur Hread Hfull. unfold firstContent in *.
  destruct (chunk_Choices chunk) as [|choice0 rest] eqn:Hchoices.
  - contradiction Hfull. reflexivity.
  - exact (Recv_content s chunk cur choice0 rest Hread Hchoices Hfull).
Qed.

(** A pull looks at the error of the read and, when there is none, at the
    first choice's content, and at nothing else: reads that agree on these
    give the same result, whatever further choices the chunks carry; and when
    the read reports an error the chunk that came with it is not looked at at
    all. *)
Theorem Recv_looks_at_first_choice_only :
  forall (s s' : streamWrapper cursor) chunk chunk' err cur cur',
    stream_Recv (stream s) = ((chunk, err), cur) ->
    stream_Recv (stream s') = ((chunk', err), cur') ->
    (err = None -> firstContent chunk = firstContent chunk') ->
    fst (Recv s) = fst (Recv s').
Proof.
  intros s s' chunk chunk' err cur cur' Hread Hread' Hsame.
  destruct err as [e|].
  - rewrite (Recv_read_error s chunk e cur Hread).
    rewrite (Recv_read_error s' chunk' e cur' Hread'). reflexivity.
  - specialize (Hsame eq_refl).
    destruct (string_dec (firstContent chunk) "") as [Hquiet | Hfull].
    + rewrite (Recv_quiet s chunk cur Hread Hquiet).
      rewrite Hsame in Hquiet.
      rewrite (Recv_quiet s' chunk' cur' Hread' Hquiet). reflexivity.
    + rewrite (Recv_speaks s chunk cur Hread Hfull).
      rewrite Hsame in Hfull.
      rewrite (Recv_speaks s' chunk' cur' Hread' Hfull).
      rewrite Hsame. reflexivity.
Qed.

(** The adapter keeps no state of its own and latches nothing: [n] pulls give
    [n] results and read the cursor exactly [n] times, also once the end of
    the stream or an error has been returned. *)
Theorem pulls_read_once_each : forall n (s : streamWrapper cursor),
  length (fst (pulls n s)) = n
  /\ stream (snd (pulls n s)) = cursorAfter n (stream s).
Proof.
  induction n as [|n IH]; intros s.
  - split; reflexivity.
  - rewrite pulls_S. cbn [fst snd length cursorAfter].
    destruct (IH (snd (Recv s))) as [Hlen Hcur].
    rewrite Hlen, Hcur, Recv_advances. split; reflexivity.
Qed.

Lemma collect_after_reads :
  forall chunks last e (s : streamWrapper cursor) acc fuel,
    readsGive (stream s)
      (map (fun chunk => (chunk, None)) chunks ++ [ (last, Some e) ]) ->
    length chunks < fuel ->
    collect fuel s acc =
      Some (if is_EOF e then inl (acc ++ joined chunks)%string else inr e).
Proof.
  induction chunks as [|chunk chunks IH]; intros last e s acc fuel Hreads Hfuel.
  - destruct fuel as [|fuel]; [inversion Hfuel|].
    cbn [map app readsGive] in Hreads. destruct Hreads as [Hread _].
    assert (Hfull : stream_Recv (stream s) =
                      ((last, Some e), snd (stream_Recv (stream s)))).
    { rewrite <- Hread. destruct (stream_Recv (stream s)); reflexivity. }
    cbn [collect]. rewrite (Recv_read_error s last e _ Hfull).
    cbn [classify fst snd joined fold_right]. rewrite append_empty_r.
    destruct (is_EOF e); reflexivity.
  - destruct fuel as [|fuel]; [inversion Hfuel|].
    cbn [map app readsGive] in Hreads. destruct Hreads as [Hread Hrest].
    assert (Hfull : stream_Recv (stream s) =
                      ((chunk, None), snd (stream_Recv (stream s)))).
    { rewrite <- Hread. destruct (stream_Recv (stream s)); reflexivity. }
    assert (Hfuel' : length chunks < fuel) by (cbn [length] in Hfuel; lia).
    cbn [collect joined fold_right]. fold (joined chunks).
    destruct (string_dec (firstContent chunk) "") as [Hquiet | Hspeaks].
    + rewrite (Recv_quiet s chunk _ Hfull Hquiet).
      cbn [classify fst snd]. rewrite Hquiet.
      rewrite (IH last e {| stream := snd (stream_Recv (stream s)) |} acc fuel
                 Hrest Hfuel').
      reflexivity.
    + rewrite (Recv_speaks s chunk _ Hfull Hspeaks).
      cbn [classify fst snd Message Content].
      rewrite (IH last e {| stream := snd (stream_Recv (stream s)) |}
                 (acc ++ firstContent chunk)%string fuel Hrest Hfuel').
      rewrite append_assoc_s. reflexivity.
Qed.

(** The consumer loop of the package's test, run on any cursor whose reads
    give some chunks without error and then an error: when that error is
    [io.EOF] the loop ends with the first-choice contents of the chunks, in
    order, appended to what it started with, chunks without content adding
    nothing; when it is another error the loop ends with that error.  As many
    pulls as there are chunks, and one more, are enough. *)
Theorem collect_joins_contents :
  forall chunks last e (s : streamWrapper cursor) acc fuel,
    readsGive (stream s)
      (map (fun chunk => (chunk, None)) chunks ++ [ (last, Some e) ]) ->
    length chunks < fuel ->
    collect fuel s acc =
      Some (if is_EOF e then inl (acc ++ joined chunks)%string else inr e).
Proof.
  intros chunks last e s acc fuel Hreads Hfuel.
  exact (collect_after_reads chunks last e s acc fuel Hreads Hfuel).
Qed.

(** From opening to the end: when the handle is there, the transport opens
    the stream without error, and the reads of the cursor it returns give some
    chunks and then [io.EOF], [ChatStream] returns an adapter over that very
    cursor, not yet read, and the consumer loop run on it ends with the
    first-choice contents of the chunks put together in order. *)
Theorem stream_end_to_end :
  forall c req w h c1 w1 cur chunks last,
    newOpenAIClient c w = ((h, None), c1, w1) ->
    CreateChatCompletionStream (calls w1) h
      {| req_Model := Model c1;
         req_Messages := buildMessages (Messages req);
         req_Stream := true |} = (cur, None) ->
    readsGive cur
      (map (fun chunk => (chunk, None)) chunks ++ [ (last, Some io_EOF) ]) ->
    fst (fst (ChatStream c req w)) = (Some {| stream := cur |}, None)
    /\ collect (S (length chunks)) {| stream := cur |} "" =
         Some (inl (joined chunks)).
Proof.
  intros c req w h c1 w1 cur chunks last Hnew Hopen Hreads.
  split.
  - rewrite (ChatStream_sent c req w h c1 w1 Hnew). cbn zeta.
    rewrite Hopen. reflexivity.
  - rewrite (collect_after_reads chunks last io_EOF {| stream := cur |} ""
               (S (length chunks)) Hreads (Nat.lt_succ_diag_r _)).
    reflexivity.
Qed.

End StreamFacts.

Lemma Recv_looks_at_first_choice_only_witness :
  fst (@Recv script silentTransport
         {| stream :=
              [ ({| chunk_Choices :=
                      [ {| Delta := {| delta_Content := "one" |} |};
                        {| Delta := {| delta_Content := "two" |} |} ] |},
                 None) ] |}) =
  fst (@Recv script silentTransport
         {| stream := [ (contentChunk "one", None) ] |}).
Proof.
  apply (@Recv_looks_at_first_choice_only script silentTransport
           {| stream :=
                [ ({| chunk_Choices :=
                        [ {| Delta := {| delta_Content := "one" |} |};
                          {| Delta := {| delta_Content := "two" |} |} ] |},
                   None) ] |}
           {| stream := [ (contentChunk "one", None) ] |}
           {| chunk_Choices :=
                [ {| Delta := {| delta_Content := "one" |} |};
                  {| Delta := {| delta_Content := "two" |} |} ] |}
           (contentChunk "one") None [] []
           eq_refl eq_refl).
  intros _. reflexivity.
Defined.

Lemma collect_joins_contents_witness :
  @collect script silentTransport 4 {| stream := sparseStream |} "so far: " =
    Some (inl "so far: late")
  /\ @collect script silentTransport 2 {| stream := brokenStream |} "" =
       Some (inr (errorString "unexpected end of JSON input")).
Proof.
  split.
  - apply (@collect_joins_contents script silentTransport
             [ keepaliveChunk; roleOnlyChunk; contentChunk "late" ]
             {| chunk_Choices := [] |} io_EOF
             {| stream := sparseStream |} "so far: " 4).
    + cbn. repeat split.
    + cbn. lia.
  - apply (@collect_joins_contents script silentTransport
             [ contentChunk "partial" ]
             keepaliveChunk (errorString "unexpected end of JSON input")
             {| stream := brokenStream |} "" 2).
    + cbn. repeat split.
    + cbn. lia.
Defined.

Lemma stream_end_to_end_witness :
  fst (fst (@ChatStream script
              (scriptedTransport ({| resp_Choices := [] |}, None)
                                 (helloWorld, None))
              localClient hiRequest emptyWorld)) =
    (Some {| stream := helloWorld |}, None)
  /\ @collect script
       (scriptedTransport ({| resp_Choices := [] |}, None) (helloWorld, None))
       3 {| stream := helloWorld |} "" = Some (inl "hello world").
Proof.
  apply (@stream_end_to_end script
           (scriptedTransport ({| resp_Choices := [] |}, None)
                              (helloWorld, None))
           localClient hiRequest emptyWorld
           (fst (fst (fst (newOpenAIClient localClient emptyWorld))))
           (snd (fst (newOpenAIClient localClient emptyWorld)))
           (snd (newOpenAIClient localClient emptyWorld))
           helloWorld
           [ contentChunk "hello "; contentChunk "world" ]
           {| chunk_Choices := [] |}
           eq_refl eq_refl).
  cbn. repeat split.
Defined.
